(** * Latency analytics: the aggregation behind [POST /api/latency]

    A shallow embedding of [api/index.py]: the literal telemetry dataset,
    its grouping by region into a [defaultdict], and the request handler
    [analyze_latency] that reads the grouped store.

    Numbers.  The telemetry values are decimal literals and the statistics
    are means, interpolations and decimal roundings of them.  They are
    modelled as exact rationals ([Q]); the binary64 rounding error that
    numpy adds to each operation is not part of the model.  A JSON number
    is a [number]: Python's [int] and [float] are kept apart, because the
    handler returns the integer [0] for a region it does not know and
    floats for one it knows.

    State.  [PROCESSED_DATA] is a module-level [defaultdict]: reading a
    missing key through [d[k]] inserts a fresh bucket.  The store is
    therefore threaded through the handler, which returns the store it
    leaves behind together with its result.

    Failure.  [None] stands for a request that does not produce a JSON
    body: an exception, or a [nan] (which the JSON encoder refuses). *)

From Stdlib Require Import ZArith QArith Qround Qabs Lia Lqa Sorted.
From stdpp Require Import gmap strings list fin_maps.

Local Open Scope Z_scope.

(** ** Data model *)

(** A JSON number as Python produces it. *)
Inductive number : Type :=
  | PyInt (z : Z)
  | PyFloat (q : Q).

(** One element of [TELEMETRY_DATA]. *)
Record Sample : Type := mkSample {
  region : string;
  service : string;
  latency_ms : Q;
  uptime_pct : Q;
  timestamp : Z
}.

Arguments mkSample _%_string _%_string _%_Q _%_Q _%_Z.

(** The value type of [PROCESSED_DATA]:
    [{'latencies': [...], 'uptimes': [...]}]. *)
Record Bucket : Type := mkBucket {
  latencies : list Q;
  uptimes : list Q
}.

(** The value type of [results]. *)
Record RegionStats : Type := mkStats {
  avg_latency : number;
  p95_latency : number;
  avg_uptime : number;
  breaches : Z
}.

(** [AnalyticsRequest]. *)
Record AnalyticsRequest : Type := mkRequest {
  regions : list string;
  threshold_ms : Z
}.

(** ** The literal dataset *)

Definition TELEMETRY_DATA : list Sample := [
  mkSample "apac" "catalog" 103.67 99.269 20250301;
  mkSample "apac" "support" 206.81 98.88 20250302;
  mkSample "apac" "analytics" 150.4 97.798 20250303;
  mkSample "apac" "checkout" 139.44 97.891 20250304;
  mkSample "apac" "support" 159.57 97.519 20250305;
  mkSample "apac" "checkout" 231.17 97.365 20250306;
  mkSample "apac" "checkout" 155.99 97.822 20250307;
  mkSample "apac" "recommendations" 177.31 97.575 20250308;
  mkSample "apac" "payments" 236.58 97.27 20250309;
  mkSample "apac" "support" 152.06 98.879 20250310;
  mkSample "apac" "analytics" 143.73 98.738 20250311;
  mkSample "apac" "checkout" 100.63 98.563 20250312;
  mkSample "emea" "analytics" 186.77 97.498 20250301;
  mkSample "emea" "support" 223.88 99.071 20250302;
  mkSample "emea" "payments" 225.29 98.303 20250303;
  mkSample "emea" "payments" 126.49 97.432 20250304;
  mkSample "emea" "catalog" 183.37 99.029 20250305;
  mkSample "emea" "support" 169.76 98.48 20250306;
  mkSample "emea" "catalog" 135.66 97.909 20250307;
  mkSample "emea" "support" 125.56 97.164 20250308;
  mkSample "emea" "recommendations" 219.31 97.868 20250309;
  mkSample "emea" "payments" 132 99.2 20250310;
  mkSample "emea" "checkout" 122.16 98.539 20250311;
  mkSample "emea" "checkout" 107.86 98.703 20250312;
  mkSample "amer" "recommendations" 162.82 98.083 20250301;
  mkSample "amer" "recommendations" 171.9 97.271 20250302;
  mkSample "amer" "analytics" 154.74 98.954 20250303;
  mkSample "amer" "recommendations" 130.84 98.581 20250304;
  mkSample "amer" "payments" 222.48 98.746 20250305;
  mkSample "amer" "support" 123.92 99.387 20250306;
  mkSample "amer" "payments" 183.61 99.035 20250307;
  mkSample "amer" "analytics" 157.98 99.103 20250308;
  mkSample "amer" "recommendations" 212.52 98.047 20250309;
  mkSample "amer" "payments" 215.67 99.02 20250310;
  mkSample "amer" "recommendations" 141.13 99.242 20250311;
  mkSample "amer" "payments" 134.05 98.826 20250312
].

(** ** The grouped store: a [defaultdict] *)

(** [lambda: {'latencies': [], 'uptimes': []}] *)
Definition default_factory : Bucket := mkBucket [] [].

(** [d[k]] on a [defaultdict]: a missing key is inserted with the
    factory's value, and that value is returned. *)
Definition dd_getitem (k : string) (d : gmap string Bucket)
  : Bucket * gmap string Bucket :=
  match d !! k with
  | Some b => (b, d)
  | None => (default_factory, <[k := default_factory]> d)
  end.

(** [k in d]: a membership test inserts nothing. *)
Definition dd_contains (k : string) (d : gmap string Bucket) : bool :=
  bool_decide (is_Some (d !! k)).

(** The body of [for item in TELEMETRY_DATA].  Each [.append] mutates the
    list held by the bucket held by the store; with explicit state that is
    a write back under the same key. *)
Definition group_step (d : gmap string Bucket) (item : Sample)
  : gmap string Bucket :=
  let r := region item in
  let '(b, d) := dd_getitem r d in
  let d := <[r := mkBucket (latencies b ++ [latency_ms item]) (uptimes b)]> d in
  let '(b, d) := dd_getitem r d in
  <[r := mkBucket (latencies b) (uptimes b ++ [uptime_pct item])]> d.

(** The store after the module-level loop over [data]. *)
Definition group (data : list Sample) : gmap string Bucket :=
  foldl group_step ∅ data.

Definition PROCESSED_DATA : gmap string Bucket := group TELEMETRY_DATA.

(** ** The numpy and builtin operations the handler calls

    Each definition follows what the library does on a one-dimensional
    sequence of finite numbers, computed exactly. *)

Module np.

(** [np.add.reduce]: the running sum, from the left. *)
Definition add_reduce (a : list Q) : Q := foldl Qplus 0%Q a.

(** [np.mean(a)]: the sum divided by the number of items.  On an empty
    sequence numpy divides zero by zero and yields [nan]. *)
Definition mean (a : list Q) : option Q :=
  match a with
  | [] => None
  | _ => Some (add_reduce a / inject_Z (Z.of_nat (length a)))%Q
  end.

(** Ascending order.  [percentile] only partitions the array around the
    two indices it reads; the items it finds there are those of the
    sorted array. *)
Fixpoint insert (x : Q) (l : list Q) : list Q :=
  match l with
  | [] => [x]
  | y :: l' => if Qle_bool x y then x :: l else y :: insert x l'
  end.

Definition sort (a : list Q) : list Q := foldr insert [] a.

(** [arr[i]] with Python's negative indices; out of range is an
    [IndexError]. *)
Definition getitem (arr : list Q) (i : Z) : option Q :=
  let n := Z.of_nat (length arr) in
  let i := if i <? 0 then i + n else i in
  if (0 <=? i) && (i <? n) then arr !! Z.to_nat i else None.

(** [_lerp(a, b, t)]: [a + (b - a) * t], replaced by
    [b - (b - a) * (1 - t)] where [t >= 0.5]. *)
Definition lerp (a b t : Q) : Q :=
  let diff_b_a := (b - a)%Q in
  let lerp_interpolation := (a + diff_b_a * t)%Q in
  if Qle_bool (1 # 2) t then (b - diff_b_a * (1 - t))%Q
  else lerp_interpolation.

(** [np.percentile(a, q)] with the default method, ["linear"]: the
    virtual index is [(n - 1) * (q / 100)], the two neighbours are its
    floor and the next index, both moved to the last item when the
    virtual index reaches [n - 1] and to the first when it is negative,
    and the result interpolates between them.  A [q] outside [0, 100] is
    a [ValueError]. *)
Definition percentile (a : list Q) (q : Q) : option Q :=
  let q := (q / 100)%Q in
  if negb (Qle_bool 0 q && Qle_bool q 1) then None else
  let arr := sort a in
  let values_count := Z.of_nat (length arr) in
  let virtual_index := (inject_Z (values_count - 1) * q)%Q in
  let previous_index := Qfloor virtual_index in
  let next_index := previous_index + 1 in
  let above_bounds := Qle_bool (inject_Z (values_count - 1)) virtual_index in
  let previous_index := if above_bounds then -1 else previous_index in
  let next_index := if above_bounds then -1 else next_index in
  let below_bounds :=
    match (virtual_index ?= 0)%Q with Lt => true | _ => false end in
  let previous_index := if below_bounds then 0 else previous_index in
  let next_index := if below_bounds then 0 else next_index in
  previous ← getitem arr previous_index;
  next ← getitem arr next_index;
  let gamma := (virtual_index - inject_Z previous_index)%Q in
  Some (lerp previous next gamma).

(** [np.rint]: the nearest integer, a tie going to the even one. *)
Definition rint (x : Q) : Z :=
  let f := Qfloor x in
  match (x - inject_Z f ?= 1 # 2)%Q with
  | Lt => f
  | Gt => f + 1
  | Eq => if Z.even f then f else f + 1
  end.

(** [np.array(a) > t] for an integer [t]: the mask of the items strictly
    above [t]. *)
Definition gt (a : list Q) (t : Z) : list bool :=
  map (λ x, match (x ?= inject_Z t)%Q with Gt => true | _ => false end) a.

(** [np.sum] of a mask: the number of [True]. *)
Definition sum (mask : list bool) : Z :=
  foldl (λ acc (b : bool), acc + (if b then 1 else 0)) 0 mask.

End np.

(** [round(x, ndigits)] on a numpy float: scale by [10 ** ndigits], round
    to the nearest integer with [rint], scale back.  The result is kept as
    that integer over [10 ** ndigits], the decimal the float prints as. *)
Definition round (x : Q) (ndigits : nat) : Q :=
  let scale := 10 ^ Z.of_nat ndigits in
  Qmake (np.rint (x * inject_Z scale)) (Z.to_pos scale).

(** ** The handler *)

(** The entry written for a region without data. *)
Definition zero_stats : RegionStats := mkStats (PyInt 0) (PyInt 0) (PyInt 0) 0.

(** The body of [for region in request.regions], from the store and the
    results so far to the store and the results after it. *)
Definition analyze_region (threshold_ms : Z) (region : string)
    (results : gmap string RegionStats) (d : gmap string Bucket)
  : option (gmap string RegionStats * gmap string Bucket) :=
  if negb (dd_contains region d) then
    Some (<[region := zero_stats]> results, d)
  else
    let '(b, d) := dd_getitem region d in
    let latencies := latencies b in
    let '(b, d) := dd_getitem region d in
    let uptimes := uptimes b in
    avg_latency ← np.mean latencies;
    p95_latency ← np.percentile latencies 95;
    avg_uptime ← np.mean uptimes;
    let breaches := np.sum (np.gt latencies threshold_ms) in
    Some (<[region := mkStats (PyFloat (round avg_latency 2))
                              (PyFloat (round p95_latency 2))
                              (PyFloat (round avg_uptime 4))
                              breaches]> results, d).

Fixpoint analyze_loop (threshold_ms : Z) (rs : list string)
    (results : gmap string RegionStats) (d : gmap string Bucket)
  : option (gmap string RegionStats * gmap string Bucket) :=
  match rs with
  | [] => Some (results, d)
  | region :: rs =>
      '(results, d) ← analyze_region threshold_ms region results d;
      analyze_loop threshold_ms rs results d
  end.

(** [analyze_latency(request)], run on the store [d]: the response body
    and the store after the call. *)
Definition analyze_latency (request : AnalyticsRequest)
    (d : gmap string Bucket)
  : option (gmap string RegionStats * gmap string Bucket) :=
  analyze_loop (threshold_ms request) (regions request) ∅ d.

(** [root()]: the payload of [GET /], a constant that reads no store. *)
Definition root : gmap string string :=
  {[ "message" := "Latency Analytics API"; "status" := "running" ]}.

(** ** What the specification calls these quantities *)

(** The arithmetic mean of a sequence: its sum over its length. *)
Definition arithmetic_mean (l : list Q) : Q :=
  (foldr Qplus 0 l / inject_Z (Z.of_nat (length l)))%Q.

(** The 95th percentile by linear interpolation between closest ranks:
    with the sequence sorted ascending and [n] its length,
    [r = 0.95 * (n - 1)], [lo = floor r], [hi = ceil r], [frac = r - lo],
    the value is [sorted[lo] + frac * (sorted[hi] - sorted[lo])]. *)
Definition percentile95_closest_ranks (l : list Q) : Q :=
  let sorted := np.sort l in
  let n := Z.of_nat (length l) in
  let r := (0.95 * inject_Z (n - 1))%Q in
  let lo := Qfloor r in
  let hi := Qceiling r in
  let frac := (r - inject_Z lo)%Q in
  let at_lo := nth (Z.to_nat lo) sorted 0%Q in
  let at_hi := nth (Z.to_nat hi) sorted 0%Q in
  (at_lo + frac * (at_hi - at_lo))%Q.

(** The number of items strictly greater than the threshold. *)
Fixpoint count_above (t : Z) (l : list Q) : nat :=
  match l with
  | [] => O
  | x :: l' =>
      if Qlt_le_dec (inject_Z t) x then S (count_above t l')
      else count_above t l'
  end.

(** The samples of one region, in the order of the dataset. *)
Definition samples_of (r : string) (data : list Sample) : list Sample :=
  filter (λ s, region s = r) data.

(** The bucket a run of samples fills: none for no sample. *)
Definition bucket_of (items : list Sample) : option Bucket :=
  match items with
  | [] => None
  | _ => Some (mkBucket (latency_ms <$> items) (uptime_pct <$> items))
  end.

(** The entry one pass of the loop body writes for a region, from what the
    store holds under it. *)
Definition entry_for (threshold_ms : Z) (ob : option Bucket)
  : option RegionStats :=
  match ob with
  | None => Some zero_stats
  | Some b =>
      avg_latency ← np.mean (latencies b);
      p95_latency ← np.percentile (latencies b) 95;
      avg_uptime ← np.mean (uptimes b);
      Some (mkStats (PyFloat (round avg_latency 2))
                    (PyFloat (round p95_latency 2))
                    (PyFloat (round avg_uptime 4))
                    (np.sum (np.gt (latencies b) threshold_ms)))
  end.

(** A store in which every bucket has samples. *)
Definition populated (d : gmap string Bucket) : Prop :=
  ∀ r b, d !! r = Some b → latencies b ≠ [] ∧ uptimes b ≠ [].

(** The [apac] bucket of the literal dataset, written out. *)
Definition apac_latencies : list Q :=
  [103.67; 206.81; 150.4; 139.44; 159.57; 231.17;
   155.99; 177.31; 236.58; 152.06; 143.73; 100.63]%Q.

Definition apac_uptimes : list Q :=
  [99.269; 98.88; 97.798; 97.891; 97.519; 97.365;
   97.822; 97.575; 97.27; 98.879; 98.738; 98.563]%Q.

(** A closed premise at a concrete input, settled by evaluation. *)
Ltac evaluate :=
  first [ vm_compute; reflexivity
        | apply (bool_decide_unpack _); vm_compute; exact I ].

(** * Properties *)

(** ** Grouping *)

Section grouping.

Implicit Types (d : gmap string Bucket) (data : list Sample) (r : string).

Lemma dd_getitem_present d r b :
  d !! r = Some b → dd_getitem r d = (b, d).
Proof. unfold dd_getitem. by intros ->. Qed.

Lemma dd_getitem_missing d r :
  d !! r = None → dd_getitem r d = (default_factory, <[r := default_factory]> d).
Proof. unfold dd_getitem. by intros ->. Qed.

Lemma dd_contains_spec d r : dd_contains r d = true ↔ is_Some (d !! r).
Proof. unfold dd_contains. by rewrite bool_decide_eq_true. Qed.

(** One sample extends the bucket of its region, created empty when it
    is the first of that region, and touches no other bucket. *)
Lemma group_step_insert d item :
  group_step d item =
  let b := default default_factory (d !! region item) in
  <[region item := mkBucket (latencies b ++ [latency_ms item])
                            (uptimes b ++ [uptime_pct item])]> d.
Proof.
  unfold group_step.
  destruct (d !! region item) as [b|] eqn:Hd.
  - rewrite (dd_getitem_present _ _ _ Hd). cbn.
    rewrite (dd_getitem_present _ _ _ (lookup_insert_eq _ _ _)). cbn.
    by rewrite insert_insert_eq.
  - rewrite (dd_getitem_missing _ _ Hd). cbn.
    rewrite (dd_getitem_present _ _ _ (lookup_insert_eq _ _ _)). cbn.
    by rewrite !insert_insert_eq.
Qed.

Lemma group_snoc data item :
  group (data ++ [item]) = group_step (group data) item.
Proof. unfold group. by rewrite foldl_app. Qed.

Lemma bucket_of_snoc items item :
  bucket_of (items ++ [item]) =
  let b := default default_factory (bucket_of items) in
  Some (mkBucket (latencies b ++ [latency_ms item])
                 (uptimes b ++ [uptime_pct item])).
Proof.
  destruct items as [|s items]; [done|].
  cbn [bucket_of app]. cbn. by rewrite !fmap_app.
Qed.

(** The store holds, under each region, the samples of that region in
    dataset order, and nothing under a region without samples. *)
Lemma group_lookup data r :
  group data !! r = bucket_of (samples_of r data).
Proof.
  induction data as [|item data IH] using rev_ind; [done|].
  rewrite group_snoc, group_step_insert. unfold samples_of in *.
  rewrite filter_app. cbn zeta.
  destruct (decide (region item = r)) as [Heq|Hne].
  - rewrite filter_cons_True by done. rewrite filter_nil.
    rewrite Heq, lookup_insert_eq, IH.
    by rewrite bucket_of_snoc.
  - rewrite lookup_insert_ne by done.
    rewrite filter_cons_False by (cbn; congruence). rewrite filter_nil.
    by rewrite app_nil_r.
Qed.

Lemma bucket_of_Some items b :
  bucket_of items = Some b →
  items ≠ [] ∧ latencies b = latency_ms <$> items
  ∧ uptimes b = uptime_pct <$> items.
Proof. destruct items; cbn; [discriminate|]. intros [= <-]. by repeat split. Qed.

(** Every bucket of a grouped store has at least one sample. *)
Lemma group_nonempty data r b :
  group data !! r = Some b → latencies b ≠ [] ∧ uptimes b ≠ [].
Proof.
  rewrite group_lookup. intros (Hne & -> & ->)%bucket_of_Some.
  by destruct (samples_of r data).
Qed.

End grouping.

(** ** Numbers *)

Section numbers.

Local Open Scope Q_scope.

(** Rounding looks at the value of a rational, not at its fraction. *)
Lemma rint_proper (x y : Q) : x == y → np.rint x = np.rint y.
Proof.
  intros H. unfold np.rint. cbv zeta.
  rewrite (Qfloor_comp _ _ H).
  assert (x - inject_Z (Qfloor y) == y - inject_Z (Qfloor y)) as ->
    by (rewrite H; reflexivity).
  reflexivity.
Qed.

Lemma round_proper (x y : Q) (ndigits : nat) :
  x == y → round x ndigits = round y ndigits.
Proof.
  intros H. unfold round. cbv zeta. f_equal.
  apply rint_proper. rewrite H. reflexivity.
Qed.


(** *** Mean *)

Lemma add_reduce_from (acc : Q) (a : list Q) :
  foldl Qplus acc a == acc + foldr Qplus 0 a.
Proof.
  revert acc. induction a as [|x a IH]; intros acc; cbn.
  - ring.
  - rewrite IH. ring.
Qed.

Lemma add_reduce_sum (a : list Q) : np.add_reduce a == foldr Qplus 0 a.
Proof. unfold np.add_reduce. rewrite add_reduce_from. ring. Qed.

(** On a non-empty sequence [np.mean] is the arithmetic mean. *)
Lemma mean_arithmetic (a : list Q) :
  a ≠ [] → ∃ v, np.mean a = Some v ∧ v == arithmetic_mean a.
Proof.
  intros Ha. destruct a as [|x a]; [done|].
  eexists. split; [reflexivity|].
  unfold arithmetic_mean. by rewrite add_reduce_sum.
Qed.

(** *** Sorting *)

Lemma insert_perm (x : Q) (l : list Q) : np.insert x l ≡ₚ x :: l.
Proof.
  induction l as [|y l IH]; cbn; [done|].
  destruct (Qle_bool x y); [done|].
  rewrite IH. apply Permutation_swap.
Qed.

Lemma sort_perm (a : list Q) : np.sort a ≡ₚ a.
Proof.
  induction a as [|x a IH]; cbn; [done|].
  by rewrite insert_perm, IH.
Qed.

Lemma sort_length (a : list Q) : length (np.sort a) = length a.
Proof. by rewrite sort_perm. Qed.

Lemma insert_sorted (x : Q) (l : list Q) :
  Sorted Qle l → Sorted Qle (np.insert x l).
Proof.
  induction 1 as [|y l Hl IH Hy]; cbn.
  - by repeat constructor.
  - destruct (Qle_bool x y) eqn:Hxy.
    + apply Qle_bool_iff in Hxy. by repeat constructor.
    + assert (y <= x) as Hyx.
      { apply Qlt_le_weak, Qnot_le_lt. intros H%Qle_bool_iff. congruence. }
      constructor; [done|].
      destruct Hy as [|z l Hyz]; cbn; [by constructor|].
      destruct (Qle_bool x z); by constructor.
Qed.

(** [np.sort] returns the same items in ascending order. *)
Lemma sort_sorted (a : list Q) : Sorted Qle (np.sort a).
Proof.
  induction a as [|x a IH]; cbn; [constructor|]. by apply insert_sorted.
Qed.

(** *** Percentile *)

Lemma lerp_linear (a b t : Q) : np.lerp a b t == a + t * (b - a).
Proof. unfold np.lerp. cbv zeta. destruct (Qle_bool (1 # 2) t); ring. Qed.

(** The ceiling of a rational is its floor when it is an integer, and
    the next integer otherwise. *)
Lemma ceiling_floor_cases (x : Q) :
  (Qceiling x = Qfloor x ∧ x == inject_Z (Qfloor x))
  ∨ Qceiling x = (Qfloor x + 1)%Z.
Proof.
  destruct (Qeq_dec x (inject_Z (Qfloor x))) as [He|Hne].
  - left. split; [|done].
    rewrite (Qceiling_comp _ _ He) at 1. apply Qceiling_Z.
  - right.
    pose proof (Qfloor_le x) as H1. pose proof (Qlt_floor x) as H2.
    pose proof (Qle_ceiling x) as H3. pose proof (Qceiling_lt x) as H4.
    assert (inject_Z (Qfloor x) < x) as H1'.
    { apply Qle_lteq in H1 as [?|He]; [done|]. by destruct Hne. }
    assert (Qfloor x < Qceiling x)%Z
      by (rewrite Zlt_Qlt; eapply Qlt_le_trans; eauto).
    assert (Qceiling x - 1 < Qfloor x + 1)%Z
      by (rewrite Zlt_Qlt; eapply Qlt_trans; eauto).
    lia.
Qed.

Lemma getitem_nth (arr : list Q) (i : Z) :
  (0 <= i < Z.of_nat (length arr))%Z →
  np.getitem arr i = Some (nth (Z.to_nat i) arr 0).
Proof.
  intros Hi. unfold np.getitem. cbv zeta.
  replace (i <? 0)%Z with false by lia.
  replace ((0 <=? i)%Z && (i <? Z.of_nat (length arr))%Z) with true by lia.
  destruct (lookup_lt_is_Some_2 arr (Z.to_nat i)) as [x Hx]; [lia|].
  by rewrite (nth_lookup_Some _ _ _ _ Hx).
Qed.

(** On a non-empty sequence, numpy's floor / next-index / stable-lerp
    computation is the closest-ranks formula with floor and ceiling. *)
Lemma percentile_closest_ranks (a : list Q) :
  a ≠ [] →
  ∃ v, np.percentile a 95 = Some v ∧ v == percentile95_closest_ranks a.
Proof.
  intros Ha. unfold np.percentile, percentile95_closest_ranks. cbv zeta.
  replace (negb (Qle_bool 0 (95 / 100) && Qle_bool (95 / 100) 1))
    with false by reflexivity.
  rewrite sort_length.
  set (arr := np.sort a).
  set (m := (Z.of_nat (length a) - 1)%Z).
  assert (0 <= m)%Z as Hm by (destruct a; [done|cbn in *; lia]).
  assert (Z.of_nat (length arr) = m + 1)%Z as Hlen
    by (subst arr m; rewrite sort_length; lia).
  set (v := inject_Z m * (95 / 100)).
  assert (0.95 * inject_Z m == v) as Hv by (subst v; field).
  rewrite (Qfloor_comp _ _ Hv), (Qceiling_comp _ _ Hv).
  assert (inject_Z 0 <= inject_Z m) as Hm' by (by rewrite <- Zle_Qle).
  change (inject_Z 0) with 0 in Hm'.
  assert (v == 0.95 * inject_Z m) as Hv' by (by symmetry).
  assert (0 <= v) as Hv0 by lra.
  replace (match v ?= 0 with Lt => true | _ => false end) with false.
  2:{ destruct (Qcompare_spec v 0); try done. lra. }
  destruct (Qle_bool (inject_Z m) v) eqn:Habove.
  - (* only a single item puts the rank on the last index *)
    apply Qle_bool_iff in Habove.
    assert (v == 0) as Hv00 by lra.
    assert (m <= 0)%Z as Hm0 by (rewrite Zle_Qle; change (inject_Z 0) with 0; lra).
    rewrite (Qfloor_comp _ _ Hv00), (Qceiling_comp _ _ Hv00).
    change (Qfloor 0) with 0%Z. change (Qceiling 0) with 0%Z.
    change (Z.to_nat 0) with 0%nat.
    destruct arr as [|x [|y arr]]; cbn in Hlen; try lia.
    cbn. eexists; split; [reflexivity|].
    rewrite lerp_linear. ring.
  - assert (¬ inject_Z m <= v) as Hlt
      by (intros H%Qle_bool_iff; congruence).
    apply Qnot_le_lt in Hlt.
    pose proof (Qfloor_le v) as Hf.
    assert (0 <= Qfloor v)%Z as Hf0
      by (change 0%Z with (Qfloor 0); by apply Qfloor_resp_le).
    assert (Qfloor v < m)%Z as Hfm
      by (rewrite Zlt_Qlt; eapply Qle_lt_trans; eauto).
    rewrite !getitem_nth by lia. cbn [mbind option_bind].
    eexists; split; [reflexivity|].
    rewrite lerp_linear, Hv.
    destruct (ceiling_floor_cases v) as [[-> He]| ->].
    + assert (v - inject_Z (Qfloor v) == 0) as Hg by lra.
      rewrite Hg. ring.
    + ring.
Qed.

(** *** Counting *)

Lemma sum_gt_from (acc t : Z) (a : list Q) :
  foldl (λ acc (b : bool), acc + (if b then 1 else 0))%Z acc (np.gt a t)
  = (acc + Z.of_nat (count_above t a))%Z.
Proof.
  revert acc. induction a as [|x a IH]; intros acc; cbn; [lia|].
  rewrite IH.
  destruct (Qlt_le_dec (inject_Z t) x) as [Hlt|Hle].
  - apply Qgt_alt in Hlt as ->. lia.
  - destruct (Qcompare_spec x (inject_Z t)) as [?|?|Hgt]; [lia|lia|].
    exfalso. by apply (Qlt_not_le _ _ Hgt).
Qed.

(** The sum of the mask is the number of items above the threshold. *)
Lemma sum_gt_count (t : Z) (a : list Q) :
  np.sum (np.gt a t) = Z.of_nat (count_above t a).
Proof. unfold np.sum. by rewrite sum_gt_from. Qed.


End numbers.

(** ** The handler *)

Section handler.

Implicit Types (d : gmap string Bucket) (results : gmap string RegionStats).
Implicit Types (r : string) (rs : list string) (t : Z).

Lemma group_populated (data : list Sample) : populated (group data).
Proof. intros r b. apply group_nonempty. Qed.

(** A pass of the loop body writes one entry and leaves the store as it
    found it: the bucket is only indexed once it is known to exist. *)
Lemma analyze_region_entry t r results d :
  analyze_region t r results d =
  st ← entry_for t (d !! r); Some (<[r := st]> results, d).
Proof.
  unfold analyze_region, dd_contains.
  destruct (d !! r) as [b|] eqn:Hd.
  - rewrite bool_decide_eq_true_2 by eauto. cbn [negb].
    rewrite (dd_getitem_present _ _ _ Hd). cbn.
    rewrite (dd_getitem_present _ _ _ Hd). cbn.
    destruct (np.mean (latencies b)); [|done]. cbn.
    destruct (np.percentile (latencies b) 95); [|done]. cbn.
    by destruct (np.mean (uptimes b)).
  - rewrite bool_decide_eq_false_2 by (by intros [? ?]). done.
Qed.

(** The statistics of a region with samples. *)
Lemma entry_for_bucket t (b : Bucket) :
  latencies b ≠ [] → uptimes b ≠ [] →
  ∃ st, entry_for t (Some b) = Some st
    ∧ avg_latency st = PyFloat (round (arithmetic_mean (latencies b)) 2)
    ∧ p95_latency st
      = PyFloat (round (percentile95_closest_ranks (latencies b)) 2)
    ∧ avg_uptime st = PyFloat (round (arithmetic_mean (uptimes b)) 4)
    ∧ breaches st = Z.of_nat (count_above t (latencies b)).
Proof.
  intros Hl Hu. cbn.
  destruct (mean_arithmetic _ Hl) as (ml & -> & Hml).
  destruct (percentile_closest_ranks _ Hl) as (pl & -> & Hpl).
  destruct (mean_arithmetic _ Hu) as (mu & -> & Hmu). cbn.
  eexists. split; [reflexivity|]. cbn.
  rewrite (round_proper _ _ 2 Hml), (round_proper _ _ 2 Hpl),
    (round_proper _ _ 4 Hmu), sum_gt_count.
  done.
Qed.

Lemma entry_for_total t d r :
  populated d → is_Some (entry_for t (d !! r)).
Proof.
  intros Hd. destruct (d !! r) as [b|] eqn:Hb; [|by eexists].
  destruct (Hd _ _ Hb) as [Hl Hu].
  destruct (entry_for_bucket t b Hl Hu) as (st & -> & _). by eexists.
Qed.

(** The whole loop: it ends, the store is the one it started from, and
    each requested region maps to its entry, whatever was written for it
    by an earlier occurrence. *)
Lemma analyze_loop_entries t rs results d :
  populated d →
  ∃ results',
    analyze_loop t rs results d = Some (results', d)
    ∧ ∀ r, results' !! r =
           if decide (r ∈ rs) then entry_for t (d !! r) else results !! r.
Proof.
  intros Hd. revert results.
  induction rs as [|r0 rs IH]; intros results.
  - exists results. split; [done|]. intros r.
    by rewrite decide_False by apply not_elem_of_nil.
  - cbn [analyze_loop]. rewrite analyze_region_entry.
    destruct (entry_for_total t d r0 Hd) as [st0 Hst0]. rewrite Hst0. cbn.
    destruct (IH (<[r0 := st0]> results)) as (results' & -> & Hlook).
    exists results'. split; [done|]. intros r. rewrite Hlook.
    destruct (decide (r ∈ rs)) as [Hin|Hnin].
    + by rewrite decide_True by (by right).
    + destruct (decide (r = r0)) as [->|Hne].
      * rewrite decide_True by (by left). by rewrite lookup_insert_eq.
      * rewrite decide_False by (by intros [?|?]%elem_of_cons).
        by rewrite lookup_insert_ne.
Qed.

Lemma analyze_latency_entries (request : AnalyticsRequest) d :
  populated d →
  ∃ results,
    analyze_latency request d = Some (results, d)
    ∧ ∀ r, results !! r =
           if decide (r ∈ regions request)
           then entry_for (threshold_ms request) (d !! r) else None.
Proof.
  intros Hd. unfold analyze_latency.
  destruct (analyze_loop_entries (threshold_ms request) (regions request)
              ∅ d Hd) as (results & Hrun & Hlook).
  exists results. split; [done|]. intros r. by rewrite Hlook, lookup_empty.
Qed.

(** A requested region with samples: the call returns, the store is
    untouched, and the entry holds the four statistics. *)
Lemma analyze_latency_present (data : list Sample) request r (b : Bucket) :
  group data !! r = Some b → r ∈ regions request →
  ∃ results st,
    analyze_latency request (group data) = Some (results, group data)
    ∧ results !! r = Some st
    ∧ avg_latency st = PyFloat (round (arithmetic_mean (latencies b)) 2)
    ∧ p95_latency st
      = PyFloat (round (percentile95_closest_ranks (latencies b)) 2)
    ∧ avg_uptime st = PyFloat (round (arithmetic_mean (uptimes b)) 4)
    ∧ breaches st = Z.of_nat (count_above (threshold_ms request) (latencies b)).
Proof.
  intros Hb Hr.
  destruct (analyze_latency_entries request _ (group_populated data))
    as (results & Hrun & Hlook).
  destruct (group_nonempty _ _ _ Hb) as [Hl Hu].
  destruct (entry_for_bucket (threshold_ms request) b Hl Hu)
    as (st & Hst & Hfields).
  exists results, st. split; [done|]. split; [|done].
  by rewrite Hlook, decide_True, Hb.
Qed.


End handler.

(** ** The literal dataset *)

Lemma TELEMETRY_DATA_apac :
  group TELEMETRY_DATA !! "apac" = Some (mkBucket apac_latencies apac_uptimes).
Proof. vm_compute. reflexivity. Qed.

Lemma PROCESSED_DATA_unfold : PROCESSED_DATA = group TELEMETRY_DATA.
Proof. unfold PROCESSED_DATA. reflexivity. Qed.

Lemma PROCESSED_DATA_apac :
  PROCESSED_DATA !! "apac" = Some (mkBucket apac_latencies apac_uptimes).
Proof. rewrite PROCESSED_DATA_unfold. exact TELEMETRY_DATA_apac. Qed.


(** Region names are compared as they are written. *)
Example PROCESSED_DATA_case_sensitive :
  PROCESSED_DATA !! "APAC" = None ∧ PROCESSED_DATA !! "Apac" = None.
Proof. rewrite PROCESSED_DATA_unfold. split; vm_compute; reflexivity. Qed.

(** Indexing the store with an unknown region would add a bucket to it:
    the handler must test membership first. *)
Example dd_getitem_unknown_inserts :
  dom (dd_getitem "mars" PROCESSED_DATA).2
  = ({[ "apac"; "emea"; "amer"; "mars" ]} : gset string).
Proof.
  rewrite PROCESSED_DATA_unfold. apply (bool_decide_unpack _).
  vm_compute. exact I.
Qed.

(** The interpolation degenerates on a single sample. *)
Example percentile_single_sample (x : Q) :
  ∃ v, np.percentile [x] 95 = Some v ∧ (v == x)%Q.
Proof.
  destruct (percentile_closest_ranks [x]) as (v & Hv & He); [done|].
  exists v. split; [done|]. rewrite He.
  change (percentile95_closest_ranks [x])
    with (x + (0.95 * inject_Z 0 - inject_Z 0) * (x - x))%Q.
  ring.
Qed.

(** * The claims *)











(** C6.  With an empty list of regions the call returns the empty mapping,
    for every threshold (and on any store, which it leaves alone). *)
Theorem C6_no_regions_empty_mapping (t : Z) (d : gmap string Bucket) :
  analyze_latency (mkRequest [] t) d = Some (∅, d).
Proof. reflexivity. Qed.


(** C8, as stated, fails.  For [apac] at threshold 150 the call does not
    return an [avg_latency] of 161.78, nor one within a whole millisecond
    of it, together with 8 breaches: the twelve values average to
    163.1133... *)
Lemma C8_apac_avg_latency_not_161_78 :
  ¬ ∃ results d' st q,
      analyze_latency (mkRequest ["apac"] 150) PROCESSED_DATA
      = Some (results, d')
      ∧ results !! "apac" = Some st
      ∧ avg_latency st = PyFloat q
      ∧ (Qabs (q - 161.78) <= 1)%Q
      ∧ breaches st = 8.
Proof.
  intros (results & d' & st & q & Hrun & Hst & Hq & Habs & _).
  assert ("apac" ∈ regions (mkRequest ["apac"] 150)) as Hr by evaluate.
  destruct (analyze_latency_present TELEMETRY_DATA (mkRequest ["apac"] 150)
              "apac" _ TELEMETRY_DATA_apac Hr)
    as (results0 & st0 & Hrun0 & Hst0 & Hlat & _).
  rewrite PROCESSED_DATA_unfold, Hrun0 in Hrun.
  clear Hrun0. set (D := group TELEMETRY_DATA) in Hrun. clearbody D.
  injection Hrun as <- <-. rewrite Hst0 in Hst. injection Hst as <-.
  rewrite Hlat in Hq. injection Hq as <-. cbn [latencies] in Habs.
  assert (round (arithmetic_mean apac_latencies) 2 = 163.11%Q) as Hmean
    by (vm_compute; reflexivity).
  rewrite Hmean in Habs.
  assert (¬ (Qabs (163.11 - 161.78) <= 1)%Q) as Hfar
    by (vm_compute; intros H; by apply H).
  by apply Hfar.
Qed.

(** C8, amended.  [apac] has the twelve latencies of the literal dataset;
    at threshold 150 the call returns for it an [avg_latency] of 163.11,
    their mean rounded to 2 decimals, and 8 breaches, the number of them
    strictly above 150. *)
Theorem C8_apac_scenario :
  PROCESSED_DATA !! "apac" = Some (mkBucket apac_latencies apac_uptimes)
  ∧ length apac_latencies = 12%nat
  ∧ ∃ results st,
      analyze_latency (mkRequest ["apac"] 150) PROCESSED_DATA
      = Some (results, PROCESSED_DATA)
      ∧ results !! "apac" = Some st
      ∧ avg_latency st = PyFloat 163.11
      ∧ round (arithmetic_mean apac_latencies) 2 = 163.11%Q
      ∧ breaches st = 8
      ∧ count_above 150 apac_latencies = 8%nat.
Proof.
  split; [apply PROCESSED_DATA_apac|]. split; [reflexivity|].
  rewrite PROCESSED_DATA_unfold.
  assert ("apac" ∈ regions (mkRequest ["apac"] 150)) as Hr by evaluate.
  destruct (analyze_latency_present TELEMETRY_DATA (mkRequest ["apac"] 150)
              "apac" _ TELEMETRY_DATA_apac Hr)
    as (results & st & Hrun & Hst & Hlat & _ & _ & Hbr).
  assert (round (arithmetic_mean apac_latencies) 2 = 163.11%Q) as Hmean
    by (vm_compute; reflexivity).
  assert (count_above 150 apac_latencies = 8%nat) as Hcount
    by (vm_compute; reflexivity).
  exists results, st. cbn [latencies threshold_ms] in Hlat, Hbr.
  rewrite Hmean in Hlat. rewrite Hcount in Hbr.
  split; [exact Hrun|]. split; [exact Hst|]. split; [exact Hlat|].
  split; [exact Hmean|]. split; [exact Hbr|exact Hcount].
Qed.

(** C9.  [PROCESSED_DATA] is the grouping of [TELEMETRY_DATA], and a
    grouped store holds under each region exactly the samples of that
    region, in dataset order: the latencies and the uptimes of a bucket are
    those of the samples whose region string equals the key, so they have
    the same length; a region without sample has no bucket; and every
    sample finds the bucket of its region. *)
Theorem C9_grouped_store :
  PROCESSED_DATA = group TELEMETRY_DATA
  ∧ ∀ (data : list Sample) (r : string),
      group data !! r = bucket_of (samples_of r data)
      ∧ match group data !! r with
        | Some b =>
            latencies b = latency_ms <$> samples_of r data
            ∧ uptimes b = uptime_pct <$> samples_of r data
            ∧ length (latencies b) = length (uptimes b)
        | None => samples_of r data = []
        end
      ∧ Forall (λ s, is_Some (group data !! region s)) data.
Proof.
  split; [apply PROCESSED_DATA_unfold|]. intros data r.
  split; [apply group_lookup|]. split.
  - rewrite group_lookup.
    destruct (bucket_of (samples_of r data)) as [b|] eqn:Hb.
    + apply bucket_of_Some in Hb as (_ & -> & ->).
      by rewrite !length_fmap.
    + by destruct (samples_of r data).
  - apply Forall_forall. intros s Hs. rewrite group_lookup.
    assert (s ∈ samples_of (region s) data) as Hin
      by (by apply list_elem_of_filter).
    destruct (samples_of (region s) data); [by apply not_elem_of_nil in Hin|].
    by eexists.
Qed.


(** * Further properties *)

(** ** The shape of the response *)








(** ** Breaches *)

Section counting.

Local Open Scope Q_scope.




End counting.







(** ** Rounding and range *)

Section rounding.

Local Open Scope Q_scope.








End rounding.

Section percentile_range.

Local Open Scope Q_scope.




End percentile_range.





(** ** An empty bucket *)

Section empty_bucket.

Implicit Types (d : gmap string Bucket) (results : gmap string RegionStats).
Implicit Types (r : string) (rs : list string) (t : Z).

Lemma entry_for_empty t (b : Bucket) :
  latencies b = [] ∨ uptimes b = [] → entry_for t (Some b) = None.
Proof.
  intros [Hl|Hu]; cbn.
  - by rewrite Hl.
  - rewrite Hu. destruct (np.mean (latencies b)); [|done]. cbn.
    by destruct (np.percentile (latencies b) 95).
Qed.

(** One region that yields no entry makes the whole loop fail, wherever
    it stands in the list. *)
Lemma analyze_loop_fails t rs results d r :
  entry_for t (d !! r) = None → r ∈ rs →
  analyze_loop t rs results d = None.
Proof.
  intros Hnone. revert results.
  induction rs as [|r0 rs IH]; intros results Hr.
  - by apply not_elem_of_nil in Hr.
  - cbn [analyze_loop]. rewrite analyze_region_entry.
    destruct (entry_for t (d !! r0)) as [st0|] eqn:Hst0; [|done]. cbn.
    apply elem_of_cons in Hr as [->|Hr]; [congruence|]. by apply IH.
Qed.

End empty_bucket.

(** X11.  A requested region whose bucket exists but is empty makes the
    request fail: it gets neither statistics nor the zero entry.  Such a
    bucket is what an indexed read of a missing key leaves in the
    store. *)
Theorem X11_empty_bucket_fails
    (d : gmap string Bucket) (request : AnalyticsRequest)
    (r : string) (b : Bucket) :
  d !! r = Some b →
  latencies b = [] ∨ uptimes b = [] →
  r ∈ regions request →
  analyze_latency request d = None.
Proof.
  intros Hb Hempty Hr. unfold analyze_latency.
  apply (analyze_loop_fails _ _ _ _ r); [|done].
  rewrite Hb. by apply entry_for_empty.
Qed.

Lemma X11_empty_bucket_fails_witness :
  (dd_getitem "mars" (group TELEMETRY_DATA)).2 !! "mars"
  = Some default_factory
  ∧ (latencies default_factory = [] ∨ uptimes default_factory = [])
  ∧ "mars" ∈ ["apac"; "mars"]
  ∧ analyze_latency (mkRequest ["apac"; "mars"] 100)
      (dd_getitem "mars" (group TELEMETRY_DATA)).2 = None.
Proof.
  split; [evaluate|]. split; [left; reflexivity|]. split; [evaluate|].
  apply (X11_empty_bucket_fails (dd_getitem "mars" (group TELEMETRY_DATA)).2
           (mkRequest ["apac"; "mars"] 100) "mars" default_factory);
    [evaluate | left; reflexivity | evaluate].
Defined.

(** ** Grouping a dataset in two parts *)

(** X12.  Grouping a dataset made of two parts gives, under each region,
    the bucket of the first part followed by the bucket of the second:
    the bucket of either part when the other has none, their latencies
    and uptimes appended when both have one. *)
Theorem X12_group_of_concatenation (data1 data2 : list Sample) (r : string) :
  group (data1 ++ data2) !! r
  = union_with
      (λ b1 b2, Some (mkBucket (latencies b1 ++ latencies b2)
                               (uptimes b1 ++ uptimes b2)))
      (group data1 !! r) (group data2 !! r).
Proof.
  rewrite !group_lookup. unfold samples_of. rewrite filter_app.
  destruct (filter _ data1) as [|s1 l1], (filter _ data2) as [|s2 l2];
    cbn; try done.
  - by rewrite !app_nil_r.
  - by rewrite !fmap_app.
Qed.

(** ** The order of the samples *)

Section sample_order.

Local Open Scope Q_scope.












End sample_order.

Section dataset_order.

Implicit Types (data : list Sample) (r : string) (t : Z).



End dataset_order.



(** ** What an entry depends on *)





(** X16.  Only the region, the latency and the uptime of a sample are
    read: two datasets that agree on these three fields, sample by sample,
    are grouped into the same store, whatever their services and
    timestamps. *)
Theorem X16_service_and_timestamp_ignored (data data' : list Sample) :
  Forall2 (λ s s', region s = region s'
                   ∧ latency_ms s = latency_ms s'
                   ∧ uptime_pct s = uptime_pct s') data data' →
  group data = group data'.
Proof.
  intros Hsame. apply map_eq. intros r. rewrite !group_lookup.
  unfold samples_of.
  induction Hsame as [|s s' data data' (Hr & Hl & Hu) _ IH]; [done|].
  destruct (decide (region s = r)) as [Heq|Hne].
  - rewrite !filter_cons_True by congruence.
    cbn [bucket_of fmap list_fmap]. rewrite Hl, Hu.
    destruct (filter _ data) as [|s1 l1], (filter _ data') as [|s1' l1'];
      cbn in IH |- *; congruence.
  - by rewrite !filter_cons_False by congruence.
Qed.

Lemma X16_service_and_timestamp_ignored_witness :
  Forall2 (λ s s', region s = region s'
                   ∧ latency_ms s = latency_ms s'
                   ∧ uptime_pct s = uptime_pct s')
    [mkSample "x" "catalog" 120.5 99 20250301;
     mkSample "y" "support" 95 97 20250302]
    [mkSample "x" "payments" 120.5 99 20260101;
     mkSample "y" "checkout" 95 97 20260102]
  ∧ group [mkSample "x" "catalog" 120.5 99 20250301;
           mkSample "y" "support" 95 97 20250302]
    = group [mkSample "x" "payments" 120.5 99 20260101;
             mkSample "y" "checkout" 95 97 20260102].
Proof.
  assert (Forall2 (λ s s', region s = region s'
                           ∧ latency_ms s = latency_ms s'
                           ∧ uptime_pct s = uptime_pct s')
            [mkSample "x" "catalog" 120.5 99 20250301;
             mkSample "y" "support" 95 97 20250302]
            [mkSample "x" "payments" 120.5 99 20260101;
             mkSample "y" "checkout" 95 97 20260102]) as Hsame
    by (repeat constructor).
  split; [exact Hsame|].
  exact (X16_service_and_timestamp_ignored _ _ Hsame).
Defined.


